(** * s3preup: presigned upload URLs for S3

    A shallow embedding of [s3.go] (package [s3preup]) and of the test
    doubles of [s3_test.go], followed by the properties of the two
    operations of the package, [New] and [PresignedUploadURL].

    The package is a thin layer over the AWS SDK.  The SDK is not part of
    the package: its types are kept abstract (class [SDKTypes]), its
    functions are the methods of an interface (class [SDK]), and every
    property below holds for every implementation of that interface.

    Go pointers to [S3Provider] are addresses in a heap of provider
    objects, so that a method with a pointer receiver is a state
    transformer and "the method does not write the provider" is a
    statement about the heap.  Calls that leave the package are appended
    to a trace, so that "what is handed to the signing client" is a
    statement about the trace. *)

From Stdlib Require Import ZArith Ascii String List Lia.
From stdpp Require Import base option list strings gmap.

Local Open Scope string_scope.
Local Open Scope list_scope.
Local Open Scope Z_scope.

(** ** Go values *)

(** [time.Duration] is an [int64] count of nanoseconds.  The package never
    computes with a duration, it only passes it on, so no wrap-around
    arises, and a statement about every integer is a statement about
    every duration. *)
Definition Duration := Z.

Definition Nanosecond : Duration := 1.
Definition Second : Duration := 1000000000 * Nanosecond.
Definition Minute : Duration := 60 * Second.
Definition Hour : Duration := 60 * Minute.

(** [aws.String(v)] returns a pointer to a copy of [v]; a [*string] is
    [nil] or points to a string. *)
Definition aws_String (v : string) : option string := Some v.

(** [strings.Contains(s, substr)], used to state what a URL contains. *)
Fixpoint contains (s substr : string) : bool :=
  String.prefix substr s ||
  match s with
  | EmptyString => false
  | String _ s' => contains s' substr
  end.

(** Outcome of running Go code: it returns, or it panics (here only by
    a nil dereference). *)
Inductive Result (A : Type) : Type :=
| Ok (a : A)
| Panicked.
Arguments Ok {A} a.
Arguments Panicked {A}.

(** ** The SDK's data, as the package sees them *)

(** Modelled from the spec: [s3.PutObjectInput] is declared by the AWS SDK,
    not under src/.  The fields are the SDK's; the ones the properties name
    are content type, content length, ACL, checksums and metadata.  A
    pointer field is [None] when nil, an enumeration is a string with zero
    value the empty string, the body is a reader ([None] when nil) and the
    metadata a map ([None] when nil). *)
Record PutObjectInput : Type := {
  Bucket : option string;
  Key : option string;
  ACL : string;
  Body : option (list Byte.byte);
  BucketKeyEnabled : option bool;
  CacheControl : option string;
  ChecksumAlgorithm : string;
  ChecksumCRC32 : option string;
  ChecksumCRC32C : option string;
  ChecksumCRC64NVME : option string;
  ChecksumSHA1 : option string;
  ChecksumSHA256 : option string;
  ContentDisposition : option string;
  ContentEncoding : option string;
  ContentLanguage : option string;
  ContentLength : option Z;
  ContentMD5 : option string;
  ContentType : option string;
  ExpectedBucketOwner : option string;
  Expires : option Z;
  GrantFullControl : option string;
  GrantRead : option string;
  GrantReadACP : option string;
  GrantWriteACP : option string;
  IfMatch : option string;
  IfNoneMatch : option string;
  Metadata : option (gmap string string);
  ObjectLockLegalHoldStatus : string;
  ObjectLockMode : string;
  ObjectLockRetainUntilDate : option Z;
  RequestPayer : string;
  SSECustomerAlgorithm : option string;
  SSECustomerKey : option string;
  SSECustomerKeyMD5 : option string;
  SSEKMSEncryptionContext : option string;
  SSEKMSKeyId : option string;
  ServerSideEncryption : string;
  StorageClass : string;
  Tagging : option string;
  WebsiteRedirectLocation : option string;
  WriteOffsetBytes : option Z
}.

(** The zero value [s3.PutObjectInput{}]. *)
Definition PutObjectInput_zero : PutObjectInput := {|
  Bucket := None; Key := None; ACL := ""; Body := None;
  BucketKeyEnabled := None; CacheControl := None; ChecksumAlgorithm := "";
  ChecksumCRC32 := None; ChecksumCRC32C := None; ChecksumCRC64NVME := None;
  ChecksumSHA1 := None; ChecksumSHA256 := None; ContentDisposition := None;
  ContentEncoding := None; ContentLanguage := None; ContentLength := None;
  ContentMD5 := None; ContentType := None; ExpectedBucketOwner := None;
  Expires := None; GrantFullControl := None; GrantRead := None;
  GrantReadACP := None; GrantWriteACP := None; IfMatch := None;
  IfNoneMatch := None; Metadata := None; ObjectLockLegalHoldStatus := "";
  ObjectLockMode := ""; ObjectLockRetainUntilDate := None;
  RequestPayer := ""; SSECustomerAlgorithm := None; SSECustomerKey := None;
  SSECustomerKeyMD5 := None; SSEKMSEncryptionContext := None;
  SSEKMSKeyId := None; ServerSideEncryption := ""; StorageClass := "";
  Tagging := None; WebsiteRedirectLocation := None; WriteOffsetBytes := None
|}.

(** Assignment to the field [Bucket]. *)
Definition set_Bucket (v : option string) (i : PutObjectInput) : PutObjectInput := {|
  Bucket := v; Key := Key i; ACL := ACL i; Body := Body i;
  BucketKeyEnabled := BucketKeyEnabled i; CacheControl := CacheControl i;
  ChecksumAlgorithm := ChecksumAlgorithm i; ChecksumCRC32 := ChecksumCRC32 i;
  ChecksumCRC32C := ChecksumCRC32C i; ChecksumCRC64NVME := ChecksumCRC64NVME i;
  ChecksumSHA1 := ChecksumSHA1 i; ChecksumSHA256 := ChecksumSHA256 i;
  ContentDisposition := ContentDisposition i;
  ContentEncoding := ContentEncoding i; ContentLanguage := ContentLanguage i;
  ContentLength := ContentLength i; ContentMD5 := ContentMD5 i;
  ContentType := ContentType i; ExpectedBucketOwner := ExpectedBucketOwner i;
  Expires := Expires i; GrantFullControl := GrantFullControl i;
  GrantRead := GrantRead i; GrantReadACP := GrantReadACP i;
  GrantWriteACP := GrantWriteACP i; IfMatch := IfMatch i;
  IfNoneMatch := IfNoneMatch i; Metadata := Metadata i;
  ObjectLockLegalHoldStatus := ObjectLockLegalHoldStatus i;
  ObjectLockMode := ObjectLockMode i;
  ObjectLockRetainUntilDate := ObjectLockRetainUntilDate i;
  RequestPayer := RequestPayer i;
  SSECustomerAlgorithm := SSECustomerAlgorithm i;
  SSECustomerKey := SSECustomerKey i;
  SSECustomerKeyMD5 := SSECustomerKeyMD5 i;
  SSEKMSEncryptionContext := SSEKMSEncryptionContext i;
  SSEKMSKeyId := SSEKMSKeyId i; ServerSideEncryption := ServerSideEncryption i;
  StorageClass := StorageClass i; Tagging := Tagging i;
  WebsiteRedirectLocation := WebsiteRedirectLocation i;
  WriteOffsetBytes := WriteOffsetBytes i
|}.

(** Assignment to the field [Key]. *)
Definition set_Key (v : option string) (i : PutObjectInput) : PutObjectInput := {|
  Bucket := Bucket i; Key := v; ACL := ACL i; Body := Body i;
  BucketKeyEnabled := BucketKeyEnabled i; CacheControl := CacheControl i;
  ChecksumAlgorithm := ChecksumAlgorithm i; ChecksumCRC32 := ChecksumCRC32 i;
  ChecksumCRC32C := ChecksumCRC32C i; ChecksumCRC64NVME := ChecksumCRC64NVME i;
  ChecksumSHA1 := ChecksumSHA1 i; ChecksumSHA256 := ChecksumSHA256 i;
  ContentDisposition := ContentDisposition i;
  ContentEncoding := ContentEncoding i; ContentLanguage := ContentLanguage i;
  ContentLength := ContentLength i; ContentMD5 := ContentMD5 i;
  ContentType := ContentType i; ExpectedBucketOwner := ExpectedBucketOwner i;
  Expires := Expires i; GrantFullControl := GrantFullControl i;
  GrantRead := GrantRead i; GrantReadACP := GrantReadACP i;
  GrantWriteACP := GrantWriteACP i; IfMatch := IfMatch i;
  IfNoneMatch := IfNoneMatch i; Metadata := Metadata i;
  ObjectLockLegalHoldStatus := ObjectLockLegalHoldStatus i;
  ObjectLockMode := ObjectLockMode i;
  ObjectLockRetainUntilDate := ObjectLockRetainUntilDate i;
  RequestPayer := RequestPayer i;
  SSECustomerAlgorithm := SSECustomerAlgorithm i;
  SSECustomerKey := SSECustomerKey i;
  SSECustomerKeyMD5 := SSECustomerKeyMD5 i;
  SSEKMSEncryptionContext := SSEKMSEncryptionContext i;
  SSEKMSKeyId := SSEKMSKeyId i; ServerSideEncryption := ServerSideEncryption i;
  StorageClass := StorageClass i; Tagging := Tagging i;
  WebsiteRedirectLocation := WebsiteRedirectLocation i;
  WriteOffsetBytes := WriteOffsetBytes i
|}.

(** The composite literal
    [s3.PutObjectInput{Bucket: b, Key: k}]: the zero value with the two
    listed fields assigned. *)
Definition PutObjectInput_lit (b k : option string) : PutObjectInput :=
  set_Key k (set_Bucket b PutObjectInput_zero).

(** [v4.PresignedHTTPRequest]: the result of presigning. *)
Record PresignedHTTPRequest : Type := {
  URL : string;
  Method : string;
  SignedHeader : list (string * list string)
}.

(** The SDK's types that the package only passes around. *)
Class SDKTypes : Type := {
  GoContext : Type;        (* context.Context *)
  error : Type;            (* the non-nil values of the interface error *)
  World : Type;            (* what the SDK reads outside the package:
                              environment, credential files, clock, network *)
  Config : Type;           (* aws.Config *)
  Client : Type;           (* s3.Client *)
  PresignClient : Type;    (* s3.PresignClient *)
  LoadOptionsFunc : Type;  (* config.LoadOptionsFunc *)
  ClientOptionFn : Type;   (* an option function over s3.Options *)
  HTTPPresignerV4 : Type   (* s3.HTTPPresignerV4 *)
}.

Section Model.

Context {T : SDKTypes}.

(** [s3.PresignOptions]; the field the package assigns is [Expires]. *)
Record PresignOptions : Type := {
  ClientOptions : list ClientOptionFn;
  Presigner : option HTTPPresignerV4;
  po_Expires : Duration
}.

(** The function literal [func(po *s3.PresignOptions) { po.Expires = expires }]. *)
Definition set_po_Expires (expires : Duration) (po : PresignOptions) : PresignOptions :=
  {| ClientOptions := ClientOptions po;
     Presigner := Presigner po;
     po_Expires := expires |}.

(** The functions of the SDK that the package calls.  The two that read
    the world take it and return it.  A call into the SDK is taken to
    return: what the SDK does when it panics on its own account (on a nil
    context, say) is not described here, and the properties below that
    speak of the client's answer are about the calls that return. *)
Class SDK : Type := {
  WithRegion : string -> LoadOptionsFunc;
  LoadDefaultConfig :
    GoContext -> list LoadOptionsFunc -> World -> (Config * option error) * World;
  NewFromConfig : Config -> Client;
  NewPresignClient : Client -> PresignClient;
  PresignPutObject :
    PresignClient -> GoContext -> PutObjectInput ->
    list (PresignOptions -> PresignOptions) -> World ->
    (option PresignedHTTPRequest * option error) * World
}.

Context {sdk : SDK}.

(** ** The package's state *)

(** [type S3Provider struct]; [presignClient] is a pointer, [None] when nil. *)
Record S3Provider : Type := {
  bucket : string;
  presignClient : option PresignClient
}.

(** A pointer to an [S3Provider]: nil, or the address of a provider object. *)
Definition ptr := option nat.

(** A call that leaves the package for the world: a configuration load or
    a presign request.  The SDK's constructors ([WithRegion],
    [NewFromConfig], [NewPresignClient]) and [aws.String] build values in
    memory and are not recorded. *)
Inductive Call : Type :=
| CallLoadDefaultConfig (ctx : GoContext) (optFns : list LoadOptionsFunc)
| CallPresignPutObject (c : PresignClient) (ctx : GoContext)
    (params : PutObjectInput) (optFns : list (PresignOptions -> PresignOptions)).

Record State : Type := {
  heap : list S3Provider;   (* the provider objects allocated so far *)
  world : World;            (* the SDK's side of things *)
  calls : list Call         (* the calls made into the SDK, oldest first *)
}.

(** ** Go code as state transformers *)

Definition M (A : Type) : Type := State -> Result A * State.

Definition ret {A} (a : A) : M A := fun s => (Ok a, s).

Definition bind {A B} (m : M A) (f : A -> M B) : M B :=
  fun s =>
    match m s with
    | (Ok a, s') => f a s'
    | (Panicked, s') => (Panicked, s')
    end.

Definition panic {A} : M A := fun s => (Panicked, s).

(** Dereference of a provider pointer; a nil dereference panics. *)
Definition deref (p : ptr) : M S3Provider :=
  fun s =>
    match p with
    | None => (Panicked, s)
    | Some l =>
        match heap s !! l with
        | Some v => (Ok v, s)
        | None => (Panicked, s)
        end
    end.

(** [&S3Provider{...}]: a fresh object; nothing is ever freed. *)
Definition alloc (v : S3Provider) : M ptr :=
  fun s =>
    (Ok (Some (length (heap s))),
     {| heap := heap s ++ [v]; world := world s; calls := calls s |}).

Definition call_LoadDefaultConfig (ctx : GoContext) (optFns : list LoadOptionsFunc)
  : M (Config * option error) :=
  fun s =>
    let '(r, w) := LoadDefaultConfig ctx optFns (world s) in
    (Ok r,
     {| heap := heap s; world := w;
        calls := calls s ++ [CallLoadDefaultConfig ctx optFns] |}).

(** A method call on a pointer to an [s3.PresignClient]; the SDK
    dereferences its receiver, so a nil client panics, inside the SDK and
    before any request is signed. *)
Definition call_PresignPutObject (c : option PresignClient) (ctx : GoContext)
    (params : PutObjectInput) (optFns : list (PresignOptions -> PresignOptions))
  : M (option PresignedHTTPRequest * option error) :=
  fun s =>
    match c with
    | None => (Panicked, s)
    | Some c =>
        let '(r, w) := PresignPutObject c ctx params optFns (world s) in
        (Ok r,
         {| heap := heap s; world := w;
            calls := calls s ++ [CallPresignPutObject c ctx params optFns] |})
    end.

End Model.

Declare Scope go_scope.
Delimit Scope go_scope with go.
Notation "'let*' x ':=' m 'in' k" := (bind m (fun x => k))
  (at level 10, x pattern, m at level 100, k at level 200) : go_scope.

Section Package.

Context {T : SDKTypes} {sdk : SDK}.
Local Open Scope go_scope.

(** ** s3.go *)

(** [func New(ctx, bucket, region)], returning a provider pointer and an error *)
Definition New (ctx : GoContext) (bucket region : string) : M (ptr * option error) :=
  let* (cfg, err) := call_LoadDefaultConfig ctx [WithRegion region] in
  match err with
  | Some _ => ret (None, err)
  | None =>
      let s3Client := NewFromConfig cfg in
      let presignClient := NewPresignClient s3Client in
      let* p := alloc {| bucket := bucket; presignClient := Some presignClient |} in
      ret (p, None)
  end.

(** The method [PresignedUploadURL(ctx, destination, expires)] of a
    provider pointer [p], returning a string and an error *)
Definition PresignedUploadURL (p : ptr) (ctx : GoContext) (destination : string)
    (expires : Duration) : M (string * option error) :=
  let* this := deref p in
  let* (presignedPutRequest, err) :=
     call_PresignPutObject (presignClient this) ctx
       (PutObjectInput_lit (aws_String (bucket this)) (aws_String destination))
       [set_po_Expires expires] in
  match err with
  | Some _ => ret ("", err)
  | None =>
      match presignedPutRequest with
      | Some r => ret (URL r, None)
      | None => panic
      end
  end.

End Package.

(** ** How the package is used *)

Section Usage.

Context {T : SDKTypes} {sdk : SDK}.

(** One call of an exported operation by some caller.  A caller may
    recover from a panic and go on, so the state after a panicking call
    counts as well. *)
Inductive step : State -> State -> Prop :=
| step_New ctx bucket region s :
    step s (snd (New ctx bucket region s))
| step_PresignedUploadURL p ctx destination expires s :
    step s (snd (PresignedUploadURL p ctx destination expires s)).

(** The SDK applies the option functions in order to its own options. *)
Definition apply_optFns (optFns : list (PresignOptions -> PresignOptions))
    (po : PresignOptions) : PresignOptions :=
  fold_left (fun o f => f o) optFns po.

(** The request of a trace entry, when it is a presign call. *)
Definition presign_params (c : Call) : option PutObjectInput :=
  match c with
  | CallPresignPutObject _ _ params _ => Some params
  | CallLoadDefaultConfig _ _ => None
  end.

(** Only [Bucket] and [Key] are set: clearing the two gives the zero value. *)
Definition only_bucket_and_key (params : PutObjectInput) : Prop :=
  is_Some (Bucket params) /\ is_Some (Key params) /\
  set_Bucket None (set_Key None params) = PutObjectInput_zero.


End Usage.

(** ** s3_test.go: the test doubles *)

Module Test.

(** An argument matcher of testify: [mock.Anything] or [mock.MatchedBy(f)]. *)
Inductive Matcher (A : Type) : Type :=
| Anything
| MatchedBy (f : A -> Result bool).
Arguments Anything {A}.
Arguments MatchedBy {A} f.

Definition matches {A} (m : Matcher A) (a : A) : Result bool :=
  match m with
  | Anything => Ok true
  | MatchedBy f => f a
  end.

(** [type testS3Provider struct]; the fields are [bucket] and
    [presignClient] in the source. *)
Record testS3Provider (C : Type) : Type := {
  t_bucket : string;
  t_presignClient : C
}.
Arguments t_bucket {C} _.
Arguments t_presignClient {C} _.

Section Doubles.

Context {T : SDKTypes}.

(** [type presignClientAPI interface]: the one method returns the URL
    string directly.  A double may panic, as testify's mock does on an
    unexpected call. *)
Class presignClientAPI (C : Type) : Type := {
  api_PresignPutObject :
    C -> GoContext -> PutObjectInput ->
    list (PresignOptions -> PresignOptions) -> Result (string * option error)
}.

(** One [On("PresignPutObject", m0, m1, m2).Return(r0, r1)]. *)
Record ExpectedCall : Type := {
  on_ctx : Matcher GoContext;
  on_params : Matcher PutObjectInput;
  on_optFns : Matcher (list (PresignOptions -> PresignOptions));
  Return_0 : string;
  Return_1 : option error
}.

(** [type mockPresignClient struct { mock.Mock }]: the expectations set up
    with [On]. *)
Record mockPresignClient : Type := {
  ExpectedCalls : list ExpectedCall
}.

(** [m.Called(ctx, params, optFns)]: the return values of the first
    expectation whose matchers accept the arguments; testify panics when
    there is none.  A matcher function that panics is recovered by testify
    and counts as a mismatch. *)
Fixpoint Called (es : list ExpectedCall) (ctx : GoContext) (params : PutObjectInput)
    (optFns : list (PresignOptions -> PresignOptions))
  : Result (string * option error) :=
  match es with
  | [] => Panicked
  | e :: es' =>
      match matches (on_ctx e) ctx with
      | Panicked => Called es' ctx params optFns
      | Ok false => Called es' ctx params optFns
      | Ok true =>
          match matches (on_params e) params with
          | Panicked => Called es' ctx params optFns
          | Ok false => Called es' ctx params optFns
          | Ok true =>
              match matches (on_optFns e) optFns with
              | Panicked => Called es' ctx params optFns
              | Ok false => Called es' ctx params optFns
              | Ok true => Ok (Return_0 e, Return_1 e)
              end
          end
      end
  end.

(** The method [PresignPutObject] of the mock:
    [args := m.Called(ctx, params, optFns); return args.String(0), args.Error(1)]. *)
Definition mock_PresignPutObject (m : mockPresignClient) (ctx : GoContext)
    (params : PutObjectInput) (optFns : list (PresignOptions -> PresignOptions))
  : Result (string * option error) :=
  Called (ExpectedCalls m) ctx params optFns.

#[export] Instance mockPresignClient_api : presignClientAPI mockPresignClient :=
  {| api_PresignPutObject := mock_PresignPutObject |}.

(** The method [PresignedUploadURL] of [testS3Provider]: it returns what
    the double returns. *)
Definition PresignedUploadURL {C} `{presignClientAPI C} (p : testS3Provider C)
    (ctx : GoContext) (destination : string) (expires : Duration)
  : Result (string * option error) :=
  api_PresignPutObject (t_presignClient p) ctx
    (PutObjectInput_lit (aws_String (t_bucket p)) (aws_String destination))
    [set_po_Expires expires].

End Doubles.

(** Types for running the tests: the background context is the one
    context, [errors.New(msg)] is its message. *)
Definition testTypes : SDKTypes := {|
  GoContext := unit;
  error := string;
  World := nat;
  Config := string;
  Client := string;
  PresignClient := string;
  LoadOptionsFunc := string;
  ClientOptionFn := unit;
  HTTPPresignerV4 := unit
|}.
#[local] Existing Instance testTypes.

(** The values of [TestPresignedUploadURL]. *)
Definition ctx : @GoContext testTypes := tt.
Definition bucket : string := "test-bucket".
Definition destination : string := "uploads/test-file.txt".
Definition expires : Duration := 15 * Minute.
Definition expectedURL : string :=
  "https://test-bucket.s3.amazonaws.com/uploads/test-file.txt".
Definition expectedError : @error testTypes := "presign error".

(** The matcher of the first subtest:
    [*input.Bucket == bucket && *input.Key == destination]. *)
Definition bucket_and_key_match (input : PutObjectInput) : Result bool :=
  match Bucket input with
  | None => Panicked
  | Some b =>
      if String.eqb b bucket then
        match Key input with
        | None => Panicked
        | Some k => Ok (String.eqb k destination)
        end
      else Ok false
  end.

(** The mock of "successful presigned URL generation". *)
Definition mockClient_success : @mockPresignClient testTypes := {|
  ExpectedCalls :=
    [ {| on_ctx := Anything; on_params := MatchedBy bucket_and_key_match;
         on_optFns := Anything;
         Return_0 := expectedURL; Return_1 := None |} ]
|}.

(** The mock of "error during presigned URL generation". *)
Definition mockClient_error : @mockPresignClient testTypes := {|
  ExpectedCalls :=
    [ {| on_ctx := Anything; on_params := Anything; on_optFns := Anything;
         Return_0 := ""; Return_1 := Some expectedError |} ]
|}.

Definition provider_success : testS3Provider (@mockPresignClient testTypes) :=
  {| t_bucket := bucket; t_presignClient := mockClient_success |}.

Definition provider_error : testS3Provider (@mockPresignClient testTypes) :=
  {| t_bucket := bucket; t_presignClient := mockClient_error |}.

(** A signing side that answers every presign call with [resp] and every
    configuration load with the error [cfgerr]; each call advances the
    clock by one. *)
Definition fixedSDK (resp : option PresignedHTTPRequest * option string)
    (cfgerr : option string) : @SDK testTypes :=
  @Build_SDK testTypes
    (* WithRegion *) (fun region => region)
    (* LoadDefaultConfig *)
    (fun _ optFns w => ((String.concat "," optFns, cfgerr), S w))
    (* NewFromConfig *) (fun cfg => cfg)
    (* NewPresignClient *) (fun c => c)
    (* PresignPutObject *) (fun _ _ _ _ w => (resp, S w)).

Definition signed (url : string) : option PresignedHTTPRequest :=
  Some {| URL := url; Method := "PUT"; SignedHeader := [] |}.

(** A state with one provider, for bucket [b], as [New] leaves it. *)
Definition client : @PresignClient testTypes := "client".

Definition provider (b : string) : @S3Provider testTypes :=
  @Build_S3Provider testTypes b (Some client).

Definition one_provider (b : string) : @State testTypes :=
  {| heap := [provider b]; world := 0%nat; calls := [] |}.

Definition empty_state : @State testTypes :=
  {| heap := []; world := 0%nat; calls := [] |}.

(** Signing sides for concrete runs: one that signs every request as
    [expectedURL], one that fails every request with [expectedError]
    while also handing back a request, one that percent-encodes the key as
    SigV4 does, and one whose configuration load fails. *)
Definition sdk_success : @SDK testTypes :=
  fixedSDK (signed expectedURL, None) None.

Definition sdk_error : @SDK testTypes :=
  fixedSDK (signed "https://partial.invalid/", Some expectedError) None.



Definition configError : @error testTypes := "failed to resolve region".



Definition sdk_config_error : @SDK testTypes :=
  fixedSDK (None, None) (Some configError).

End Test.

(** The two mocks of [TestPresignedUploadURL] over any SDK types, the
    expected error being any error value; [Test.mockClient_success] and
    [Test.mockClient_error] are these at the types of the test runs. *)
Module Mocks.

Section AnyTypes.

Context {T : SDKTypes}.

Definition mockClient_success : Test.mockPresignClient := {|
  Test.ExpectedCalls :=
    [ {| Test.on_ctx := Test.Anything;
         Test.on_params := Test.MatchedBy Test.bucket_and_key_match;
         Test.on_optFns := Test.Anything;
         Test.Return_0 := Test.expectedURL; Test.Return_1 := None |} ]
|}.

Definition mockClient_error (expectedError : error) : Test.mockPresignClient := {|
  Test.ExpectedCalls :=
    [ {| Test.on_ctx := Test.Anything; Test.on_params := Test.Anything;
         Test.on_optFns := Test.Anything;
         Test.Return_0 := ""; Test.Return_1 := Some expectedError |} ]
|}.

End AnyTypes.

End Mocks.

(** ** The interface of the package, and its callers in README.md *)

Section Interface.

Context {T : SDKTypes} {sdk : SDK}.

(** [type UploadProvider interface]: the one method of the package that
    callers depend on. *)
Class UploadProvider (P : Type) : Type := {
  UploadProvider_PresignedUploadURL :
    P -> GoContext -> string -> Duration -> M (string * option error)
}.

(** A pointer to an [S3Provider] implements the interface with its method. *)
Definition S3Provider_UploadProvider : UploadProvider ptr :=
  {| UploadProvider_PresignedUploadURL := PresignedUploadURL |}.

End Interface.

Module Readme.

Section Callers.

Context {T : SDKTypes} {sdk : SDK}.
Local Open Scope go_scope.

(** The method [Error()] of an error value. *)
Variable error_Error : error -> string.

(** What the handler reads of an [http.Request]: the parsed query
    [r.URL.Query()], a map from keys to lists of values, and [r.Context()]. *)
Record Request : Type := {
  Query : gmap string (list string);
  Request_Context : GoContext
}.

(** [url.Values.Get(key)]: the first value of the key, the empty string
    when the key is missing or has no value. *)
Definition Values_Get (v : gmap string (list string)) (key : string) : string :=
  match v !! key with
  | Some (x :: _) => x
  | Some [] => ""
  | None => ""
  end.

(** What the handler does to its [http.ResponseWriter]. *)
Inductive ResponseWrite : Type :=
| http_Error (msg : string) (code : Z)
| json_Encode (v : gmap string string).

Definition StatusBadRequest : Z := 400.
Definition StatusInternalServerError : Z := 500.

(** [uploadHandler(provider)], the handler function it returns, applied to
    a response writer (the writes so far) and a request. *)
Definition uploadHandler {P} {I : @UploadProvider T P} (provider : P)
    (w : list ResponseWrite) (r : Request) : M (list ResponseWrite) :=
  let filename := Values_Get (Query r) "filename" in
  if String.eqb filename "" then
    ret (w ++ [http_Error "filename required" StatusBadRequest])
  else
    let destination := String.append "uploads/" filename in
    let* (url, err) :=
      UploadProvider_PresignedUploadURL provider (Request_Context r)
        destination (15 * Minute) in
    match err with
    | Some e => ret (w ++ [http_Error (error_Error e) StatusInternalServerError])
    | None => ret (w ++ [json_Encode {[ "upload_url" := url ]}])
    end.

End Callers.

(** A request with the given values of [filename] in its query. *)
Definition request_for (filenames : list string) : @Request Test.testTypes :=
  @Build_Request Test.testTypes {[ "filename" := filenames ]} Test.ctx.

(** [Error()] of an [errors.New(msg)] is [msg]. *)
Definition test_error_Error : @error Test.testTypes -> string := fun msg => msg.

End Readme.

(** * Properties *)

Section Properties.

Context {T : SDKTypes} {sdk : SDK}.

Implicit Types (s : State) (l : nat) (p : ptr) (this : S3Provider)
  (c : PresignClient) (ctx : GoContext) (destination bucket region : string)
  (expires : Duration).

(** The request that a call on a provider for [bucket] builds. *)
Local Abbreviation request bucket destination :=
  (PutObjectInput_lit (aws_String bucket) (aws_String destination)).

(** The state after one presign call answered with world [w]. *)
Local Abbreviation after_presign s c ctx params optFns w :=
  {| heap := heap s; world := w;
     calls := calls s ++ [CallPresignPutObject c ctx params optFns] |}.

(** ** What one call of [PresignedUploadURL] does *)

(** On a provider with a client: one call to the client, and the three
    ways its answer is turned into the result. *)
Lemma PresignedUploadURL_run s l this c ctx destination expires :
  heap s !! l = Some this ->
  presignClient this = Some c ->
  PresignedUploadURL (Some l) ctx destination expires s =
    let params := request (bucket this) destination in
    let optFns := [set_po_Expires expires] in
    let '((rq, err), w) := PresignPutObject c ctx params optFns (world s) in
    (match err, rq with
     | Some _, _ => Ok ("", err)
     | None, Some r => Ok (URL r, None)
     | None, None => Panicked
     end,
     after_presign s c ctx params optFns w).
Proof.
  intros Hl Hc.
  unfold PresignedUploadURL, bind, deref, call_PresignPutObject.
  rewrite Hl, Hc. cbv zeta.
  destruct (PresignPutObject _ _ _ _ _) as [[rq [e|]] w]; [reflexivity|].
  destruct rq; reflexivity.
Qed.

(** On a nil or dangling pointer the call panics before anything happens. *)
Lemma PresignedUploadURL_no_provider s p ctx destination expires :
  (forall l, p = Some l -> heap s !! l = None) ->
  PresignedUploadURL p ctx destination expires s = (Panicked, s).
Proof.
  intros Hp. unfold PresignedUploadURL, bind, deref.
  destruct p as [l|]; [|reflexivity].
  rewrite (Hp l eq_refl). reflexivity.
Qed.

(** On a provider whose client pointer is nil the call panics as well. *)
Lemma PresignedUploadURL_no_client s l this ctx destination expires :
  heap s !! l = Some this ->
  presignClient this = None ->
  PresignedUploadURL (Some l) ctx destination expires s = (Panicked, s).
Proof.
  intros Hl Hc. unfold PresignedUploadURL, bind, deref, call_PresignPutObject.
  rewrite Hl, Hc. reflexivity.
Qed.

(** The three cases are all the cases. *)
Lemma PresignedUploadURL_cases s p ctx destination expires :
  PresignedUploadURL p ctx destination expires s = (Panicked, s) \/
  exists l this c,
    p = Some l /\ heap s !! l = Some this /\ presignClient this = Some c.
Proof.
  destruct p as [l|].
  - destruct (heap s !! l) as [this|] eqn:Hl.
    + destruct (presignClient this) as [c|] eqn:Hc.
      * right. exists l, this, c. auto.
      * left. eapply PresignedUploadURL_no_client; eauto.
    + left. apply PresignedUploadURL_no_provider. intros ? [= <-]. exact Hl.
  - left. apply PresignedUploadURL_no_provider. intros ? [=].
Qed.

(** ** What one call of [New] does *)

Lemma New_run s ctx bucket region :
  New ctx bucket region s =
    let optFns := [WithRegion region] in
    let '((cfg, err), w) := LoadDefaultConfig ctx optFns (world s) in
    let tr := calls s ++ [CallLoadDefaultConfig ctx optFns] in
    match err with
    | Some _ => (Ok (None, err), {| heap := heap s; world := w; calls := tr |})
    | None =>
        (Ok (Some (length (heap s)), None),
         {| heap := heap s ++
              [ {| bucket := bucket;
                   presignClient := Some (NewPresignClient (NewFromConfig cfg)) |} ];
            world := w; calls := tr |})
    end.
Proof.
  unfold New, bind, call_LoadDefaultConfig. cbv zeta.
  destruct (LoadDefaultConfig _ _ _) as [[cfg [e|]] w]; reflexivity.
Qed.

(** ** The heap only grows *)

Lemma PresignedUploadURL_heap s p ctx destination expires :
  heap (snd (PresignedUploadURL p ctx destination expires s)) = heap s.
Proof.
  destruct (PresignedUploadURL_cases s p ctx destination expires)
    as [-> | (l & this & c & -> & Hl & Hc)]; [reflexivity|].
  rewrite (PresignedUploadURL_run _ _ _ _ _ _ _ Hl Hc). cbv zeta.
  destruct (PresignPutObject _ _ _ _ _) as [[rq [e|]] w]; [reflexivity|].
  destruct rq; reflexivity.
Qed.

Lemma New_heap s ctx bucket region :
  exists new, heap (snd (New ctx bucket region s)) = heap s ++ new.
Proof.
  rewrite New_run. cbv zeta.
  destruct (LoadDefaultConfig _ _ _) as [[cfg [e|]] w]; simpl.
  - exists []. symmetry. apply app_nil_r.
  - eexists. reflexivity.
Qed.

Lemma step_heap s s' l this :
  step s s' -> heap s !! l = Some this -> heap s' !! l = Some this.
Proof.
  intros Hstep Hl.
  destruct Hstep as [ctx bucket region s | p ctx destination expires s].
  - destruct (New_heap s ctx bucket region) as [new ->].
    apply lookup_app_l_Some. exact Hl.
  - rewrite PresignedUploadURL_heap. exact Hl.
Qed.

Lemma steps_heap s s' l this :
  rtc step s s' -> heap s !! l = Some this -> heap s' !! l = Some this.
Proof.
  induction 1 as [|s1 s2 s3 Hstep _ IH]; [auto|].
  intros Hl. apply IH. eapply step_heap; eauto.
Qed.

(** ** Results of [PresignedUploadURL] *)

(** C1: whenever the signing client's [PresignPutObject] returns an error
    [e] for the request of the call, [PresignedUploadURL] returns the empty
    string together with exactly [e], whatever else the client returned
    beside the error; the client has been called once, and the error is
    neither wrapped nor replaced. *)
Theorem PresignedUploadURL_error_propagated
    s l this c ctx destination expires partial e w :
  heap s !! l = Some this ->
  presignClient this = Some c ->
  PresignPutObject c ctx (request (bucket this) destination)
    [set_po_Expires expires] (world s) = ((partial, Some e), w) ->
  PresignedUploadURL (Some l) ctx destination expires s =
    (Ok ("", Some e),
     after_presign s c ctx (request (bucket this) destination)
       [set_po_Expires expires] w).
Proof.
  intros Hl Hc Hcall.
  rewrite (PresignedUploadURL_run _ _ _ _ _ _ _ Hl Hc). cbv zeta.
  rewrite Hcall. reflexivity.
Qed.

(** When the client succeeds with a presigned request, the result is the
    URL of that request and a nil error. *)
Lemma PresignedUploadURL_success s l this c ctx destination expires r w :
  heap s !! l = Some this ->
  presignClient this = Some c ->
  PresignPutObject c ctx (request (bucket this) destination)
    [set_po_Expires expires] (world s) = ((Some r, None), w) ->
  PresignedUploadURL (Some l) ctx destination expires s =
    (Ok (URL r, None),
     after_presign s c ctx (request (bucket this) destination)
       [set_po_Expires expires] w).
Proof.
  intros Hl Hc Hcall.
  rewrite (PresignedUploadURL_run _ _ _ _ _ _ _ Hl Hc). cbv zeta.
  rewrite Hcall. reflexivity.
Qed.



(** ** What is handed to the signing client *)

(** C4: for every destination and every expiry, the call hands the client
    one request whose [Key] is the destination as given and whose option
    functions set [Expires] to the expiry as given, touching no other
    option; the error of the result is the client's error, so the client
    alone decides acceptance. *)
Theorem PresignedUploadURL_forwards_unchecked
    s l this c ctx destination expires :
  heap s !! l = Some this ->
  presignClient this = Some c ->
  exists params optFns,
    calls (snd (PresignedUploadURL (Some l) ctx destination expires s)) =
      calls s ++ [CallPresignPutObject c ctx params optFns] /\
    Key params = Some destination /\
    (forall po,
       apply_optFns optFns po =
         {| ClientOptions := ClientOptions po; Presigner := Presigner po;
            po_Expires := expires |}) /\
    (let '(rq, err) := fst (PresignPutObject c ctx params optFns (world s)) in
     match fst (PresignedUploadURL (Some l) ctx destination expires s) with
     | Ok (_, err') => err' = err
     | Panicked => err = None /\ rq = None
     end).
Proof.
  intros Hl Hc.
  exists (request (bucket this) destination), [set_po_Expires expires].
  rewrite (PresignedUploadURL_run _ _ _ _ _ _ _ Hl Hc). cbv zeta.
  destruct (PresignPutObject _ _ _ _ _) as [[rq [e|]] w]; simpl.
  - repeat split; reflexivity.
  - destruct rq; repeat split; reflexivity.
Qed.

(** C9: every request that a call hands to the signing client has
    [Bucket] and [Key] set and every other field at its zero value; among
    them content type, content length, ACL, the checksums and metadata. *)
Theorem PresignedUploadURL_request_only_bucket_and_key
    s p ctx destination expires :
  exists new,
    calls (snd (PresignedUploadURL p ctx destination expires s)) =
      calls s ++ new /\
    Forall (fun call =>
      exists params,
        presign_params call = Some params /\
        only_bucket_and_key params /\
        ContentType params = None /\
        ContentLength params = None /\
        ACL params = "" /\
        (ChecksumAlgorithm params = "" /\ ChecksumCRC32 params = None /\
         ChecksumCRC32C params = None /\ ChecksumCRC64NVME params = None /\
         ChecksumSHA1 params = None /\ ChecksumSHA256 params = None /\
         ContentMD5 params = None) /\
        Metadata params = None) new.
Proof.
  destruct (PresignedUploadURL_cases s p ctx destination expires)
    as [-> | (l & this & c & -> & Hl & Hc)].
  - exists []. split; [symmetry; apply app_nil_r | constructor].
  - rewrite (PresignedUploadURL_run _ _ _ _ _ _ _ Hl Hc). cbv zeta.
    exists [CallPresignPutObject c ctx (request (bucket this) destination)
              [set_po_Expires expires]].
    split.
    + destruct (PresignPutObject _ _ _ _ _) as [[rq [e|]] w]; [reflexivity|].
      destruct rq; reflexivity.
    + constructor; [|constructor].
      exists (request (bucket this) destination).
      unfold only_bucket_and_key, aws_String. simpl.
      repeat split; eauto.
Qed.

(** ** The provider *)

(** C8: a call of [PresignedUploadURL], returning or panicking, leaves the
    heap of provider objects as it was: the bucket and the client pointer
    of every provider are unchanged and nothing else of a provider is
    written. *)
Theorem PresignedUploadURL_provider_unchanged s p ctx destination expires :
  let s' := snd (PresignedUploadURL p ctx destination expires s) in
  heap s' = heap s /\
  (forall l this,
     heap s !! l = Some this ->
     exists this',
       heap s' !! l = Some this' /\
       bucket this' = bucket this /\
       presignClient this' = presignClient this).
Proof.
  cbv zeta. split.
  - apply PresignedUploadURL_heap.
  - intros l this Hl. exists this.
    rewrite PresignedUploadURL_heap. auto.
Qed.

(** C5: when the configuration load fails with [e], [New] returns a nil
    provider together with exactly [e]; no provider object is allocated. *)
Theorem New_config_error s ctx bucket region cfg e w :
  LoadDefaultConfig ctx [WithRegion region] (world s) = ((cfg, Some e), w) ->
  New ctx bucket region s =
    (Ok (None, Some e),
     {| heap := heap s; world := w;
        calls := calls s ++ [CallLoadDefaultConfig ctx [WithRegion region]] |}).
Proof.
  intros Hload. rewrite New_run. cbv zeta. rewrite Hload. reflexivity.
Qed.

(** C10: [New] returns the error of the configuration load, whatever the
    bucket: it succeeds exactly when the load does, two bucket strings give
    the same error, and on success the new provider object holds the
    bucket string as given. *)
Theorem New_no_bucket_validation s ctx bucket region :
  let '((cfg, err), w) := LoadDefaultConfig ctx [WithRegion region] (world s) in
  let '(res, s') := New ctx bucket region s in
  (exists p, res = Ok (p, err)) /\
  ((exists l, res = Ok (Some l, None)) <-> err = None) /\
  (forall bucket', exists p',
     fst (New ctx bucket' region s) = Ok (p', err)) /\
  (forall l, res = Ok (Some l, None) ->
     heap s' !! l =
       Some {| bucket := bucket;
               presignClient := Some (NewPresignClient (NewFromConfig cfg)) |}).
Proof.
  pose proof (fun b => New_run s ctx b region) as Hrun. cbv zeta in Hrun.
  destruct (LoadDefaultConfig _ _ _) as [[cfg [e|]] w].
  - rewrite (Hrun bucket). repeat split.
    + eexists; reflexivity.
    + intros [l [=]].
    + intros [=].
    + intros b'. rewrite (Hrun b'). eexists; reflexivity.
    + intros l [=].
  - rewrite (Hrun bucket). repeat split.
    + eexists; reflexivity.
    + eexists; reflexivity.
    + intros b'. rewrite (Hrun b'). eexists; reflexivity.
    + intros l [= <-]. simpl. apply list_lookup_middle. reflexivity.
Qed.

(** C6: a provider that [New] constructed for bucket [b] holds [b] and a
    signing client, it still does after any number of further calls of the
    package's operations, and each [PresignedUploadURL] call on it hands
    that client a request for bucket [b] and the key given. *)
Theorem New_provider_bucket_invariant
    s0 ctx0 b region l s1 s2 ctx destination expires :
  New ctx0 b region s0 = (Ok (Some l, None), s1) ->
  rtc step s1 s2 ->
  exists c params,
    heap s1 !! l = Some {| bucket := b; presignClient := Some c |} /\
    heap s2 !! l = Some {| bucket := b; presignClient := Some c |} /\
    calls (snd (PresignedUploadURL (Some l) ctx destination expires s2)) =
      calls s2 ++ [CallPresignPutObject c ctx params [set_po_Expires expires]] /\
    Bucket params = Some b /\
    Key params = Some destination.
Proof.
  intros Hnew Hsteps.
  rewrite New_run in Hnew. cbv zeta in Hnew.
  destruct (LoadDefaultConfig _ _ _) as [[cfg [e|]] w]; [discriminate|].
  injection Hnew as <- <-.
  set (this := {| bucket := b;
                  presignClient := Some (NewPresignClient (NewFromConfig cfg)) |}).
  assert (H1 : heap {| heap := heap s0 ++ [this]; world := w;
                       calls := calls s0 ++
                         [CallLoadDefaultConfig ctx0 [WithRegion region]] |}
               !! length (heap s0) = Some this).
  { simpl. apply list_lookup_middle. reflexivity. }
  pose proof (steps_heap _ _ _ _ Hsteps H1) as H2.
  exists (NewPresignClient (NewFromConfig cfg)), (request b destination).
  split; [exact H1|]. split; [exact H2|].
  rewrite (PresignedUploadURL_run _ _ _ _ ctx destination expires H2 eq_refl).
  cbv zeta. simpl.
  destruct (PresignPutObject _ _ _ _ _) as [[rq [e|]] w']; [auto|].
  destruct rq; auto.
Qed.

End Properties.

(** ** The scenarios of s3_test.go, and concrete runs *)

Section Scenarios.

Local Existing Instance Test.testTypes.
Local Existing Instance Test.mockPresignClient_api.

Local Abbreviation request bucket destination :=
  (PutObjectInput_lit (aws_String bucket) (aws_String destination)).

(** C2: whenever the signing client's [PresignPutObject] succeeds with a
    request of URL [u], [PresignedUploadURL] returns exactly [u] and a nil
    error.  In the scenario of the test (bucket "test-bucket", key
    "uploads/test-file.txt", fifteen minutes, a client answering
    "https://test-bucket.s3.amazonaws.com/uploads/test-file.txt") the
    operation returns that string and no error, on the provider and on the
    test's double of it. *)
Theorem PresignedUploadURL_returns_client_URL :
  (forall (T : SDKTypes) (sdk : @SDK T) (s : @State T) l this c ctx
          destination expires r w,
     heap s !! l = Some this ->
     presignClient this = Some c ->
     @PresignPutObject T sdk c ctx (request (bucket this) destination)
       [set_po_Expires expires] (world s) = ((Some r, None), w) ->
     @PresignedUploadURL T sdk (Some l) ctx destination expires s =
       (Ok (URL r, None),
        {| heap := heap s; world := w;
           calls := calls s ++
             [CallPresignPutObject c ctx (request (bucket this) destination)
                [set_po_Expires expires]] |})) /\
  fst (@PresignedUploadURL _ Test.sdk_success (Some 0%nat) Test.ctx
         "uploads/test-file.txt" (15 * Minute) (Test.one_provider "test-bucket")) =
    Ok ("https://test-bucket.s3.amazonaws.com/uploads/test-file.txt", None) /\
  Test.PresignedUploadURL Test.provider_success Test.ctx
    "uploads/test-file.txt" (15 * Minute) =
    Ok ("https://test-bucket.s3.amazonaws.com/uploads/test-file.txt", None).
Proof.
  split; [|split].
  - intros T sdk s l this c ctx destination expires r w.
    apply PresignedUploadURL_success.
  - reflexivity.
  - reflexivity.
Qed.

Lemma PresignedUploadURL_returns_client_URL_witness :
  @PresignedUploadURL _ Test.sdk_success (Some 0%nat) Test.ctx
    Test.destination Test.expires (Test.one_provider Test.bucket) =
  (Ok (Test.expectedURL, None),
   {| heap := heap (Test.one_provider Test.bucket); world := 1%nat;
      calls := [CallPresignPutObject Test.client Test.ctx
                  (request Test.bucket Test.destination)
                  [set_po_Expires Test.expires]] |}).
Proof.
  apply (proj1 PresignedUploadURL_returns_client_URL Test.testTypes
           Test.sdk_success (Test.one_provider Test.bucket) 0%nat
           (Test.provider Test.bucket) Test.client Test.ctx Test.destination Test.expires
           {| URL := Test.expectedURL; Method := "PUT"; SignedHeader := [] |}
           1%nat);
    reflexivity.
Defined.

(** The error subtest, on the test's double. *)
Example TestPresignedUploadURL_error :
  Test.PresignedUploadURL Test.provider_error Test.ctx Test.destination
    Test.expires = Ok ("", Some "presign error").
Proof. reflexivity. Qed.

Lemma PresignedUploadURL_error_propagated_witness :
  @PresignedUploadURL _ Test.sdk_error (Some 0%nat) Test.ctx
    Test.destination Test.expires (Test.one_provider Test.bucket) =
  (Ok ("", Some Test.expectedError),
   {| heap := heap (Test.one_provider Test.bucket); world := 1%nat;
      calls := [CallPresignPutObject Test.client Test.ctx
                  (request Test.bucket Test.destination)
                  [set_po_Expires Test.expires]] |}).
Proof.
  apply (@PresignedUploadURL_error_propagated Test.testTypes Test.sdk_error
           (Test.one_provider Test.bucket) 0%nat
           (Test.provider Test.bucket) Test.client Test.ctx Test.destination Test.expires
           (Test.signed "https://partial.invalid/") Test.expectedError 1%nat);
    reflexivity.
Defined.


(** A path-traversal key and a negative expiry go to the client as given. *)
Lemma PresignedUploadURL_forwards_unchecked_witness :
  exists params optFns,
    calls (snd (@PresignedUploadURL _ Test.sdk_success (Some 0%nat) Test.ctx
                  "../../etc/passwd" (-1) (Test.one_provider Test.bucket))) =
      calls (Test.one_provider Test.bucket) ++
        [CallPresignPutObject Test.client Test.ctx params optFns] /\
    Key params = Some "../../etc/passwd" /\
    (forall po,
       apply_optFns optFns po =
         {| ClientOptions := ClientOptions po; Presigner := Presigner po;
            po_Expires := -1 |}) /\
    (let '(rq, err) :=
       fst (@PresignPutObject _ Test.sdk_success Test.client Test.ctx params
              optFns (world (Test.one_provider Test.bucket))) in
     match fst (@PresignedUploadURL _ Test.sdk_success (Some 0%nat) Test.ctx
                  "../../etc/passwd" (-1) (Test.one_provider Test.bucket)) with
     | Ok (_, err') => err' = err
     | Panicked => err = None /\ rq = None
     end).
Proof.
  apply (@PresignedUploadURL_forwards_unchecked Test.testTypes Test.sdk_success
           (Test.one_provider Test.bucket) 0%nat (Test.provider Test.bucket)
           Test.client Test.ctx "../../etc/passwd" (-1));
    reflexivity.
Defined.

(** So does an expiry of eight days, beyond the seven that S3 signs for. *)
Example PresignedUploadURL_expiry_beyond_maximum :
  calls (snd (@PresignedUploadURL _ Test.sdk_success (Some 0%nat) Test.ctx
                Test.destination (8 * 24 * Hour) (Test.one_provider Test.bucket))) =
    [CallPresignPutObject Test.client Test.ctx
       (request Test.bucket Test.destination)
       [set_po_Expires 691200000000000]].
Proof. reflexivity. Qed.

(** The empty key and a zero expiry reach the client too. *)
Example PresignedUploadURL_empty_key_zero_expiry :
  calls (snd (@PresignedUploadURL _ Test.sdk_success (Some 0%nat) Test.ctx
                "" 0 (Test.one_provider Test.bucket))) =
    [CallPresignPutObject Test.client Test.ctx
       (request Test.bucket "") [set_po_Expires 0]].
Proof. reflexivity. Qed.

Lemma PresignedUploadURL_request_only_bucket_and_key_witness :
  exists new,
    calls (snd (@PresignedUploadURL _ Test.sdk_success (Some 0%nat) Test.ctx
                  Test.destination Test.expires (Test.one_provider Test.bucket))) =
      calls (Test.one_provider Test.bucket) ++ new /\
    Forall (fun call =>
      exists params,
        presign_params call = Some params /\
        only_bucket_and_key params /\
        ContentType params = None /\
        ContentLength params = None /\
        ACL params = "" /\
        (ChecksumAlgorithm params = "" /\ ChecksumCRC32 params = None /\
         ChecksumCRC32C params = None /\ ChecksumCRC64NVME params = None /\
         ChecksumSHA1 params = None /\ ChecksumSHA256 params = None /\
         ContentMD5 params = None) /\
        Metadata params = None) new.
Proof.
  apply (@PresignedUploadURL_request_only_bucket_and_key Test.testTypes
           Test.sdk_success (Test.one_provider Test.bucket) (Some 0%nat)
           Test.ctx Test.destination Test.expires).
Defined.

(** The trace of that run does hold one request, with both fields set. *)
Example PresignedUploadURL_request_in_trace :
  presign_params <$>
    calls (snd (@PresignedUploadURL _ Test.sdk_success (Some 0%nat) Test.ctx
                  Test.destination Test.expires (Test.one_provider Test.bucket))) =
  [Some (set_Key (Some "uploads/test-file.txt")
           (set_Bucket (Some "test-bucket") PutObjectInput_zero))].
Proof. reflexivity. Qed.

Lemma PresignedUploadURL_provider_unchanged_witness :
  heap (snd (@PresignedUploadURL _ Test.sdk_error (Some 0%nat) Test.ctx
               Test.destination Test.expires (Test.one_provider Test.bucket))) =
    [Test.provider Test.bucket].
Proof.
  apply (proj1 (@PresignedUploadURL_provider_unchanged Test.testTypes
                  Test.sdk_error (Test.one_provider Test.bucket) (Some 0%nat)
                  Test.ctx Test.destination Test.expires)).
Defined.

Lemma New_config_error_witness :
  @New _ Test.sdk_config_error Test.ctx Test.bucket "no-such-region"
    Test.empty_state =
  (Ok (None, Some Test.configError),
   {| heap := []; world := 1%nat;
      calls := [CallLoadDefaultConfig Test.ctx
                  [@WithRegion _ Test.sdk_config_error "no-such-region"]] |}).
Proof.
  apply (@New_config_error Test.testTypes Test.sdk_config_error
           Test.empty_state Test.ctx Test.bucket "no-such-region"
           "no-such-region" Test.configError 1%nat);
    reflexivity.
Defined.

(** [TestNew]: construction with valid parameters. *)
Example TestNew_success :
  @New _ Test.sdk_success Test.ctx "test-bucket" "us-east-1" Test.empty_state =
  (Ok (Some 0%nat, None),
   {| heap := [ @Build_S3Provider Test.testTypes "test-bucket" (Some "us-east-1") ];
      world := 1%nat;
      calls := [CallLoadDefaultConfig Test.ctx
                  [@WithRegion _ Test.sdk_success "us-east-1"]] |}).
Proof. reflexivity. Qed.

(** The empty bucket string is accepted and stored as it is. *)
Example New_empty_bucket :
  fst (@New _ Test.sdk_success Test.ctx "" "us-east-1" Test.empty_state) =
    Ok (Some 0%nat, None) /\
  bucket <$>
    heap (snd (@New _ Test.sdk_success Test.ctx "" "us-east-1" Test.empty_state))
    !! 0%nat = Some "".
Proof. split; reflexivity. Qed.

Lemma New_provider_bucket_invariant_witness :
  exists c params,
    heap (snd (@New _ Test.sdk_success Test.ctx Test.bucket "us-east-1"
                 Test.empty_state)) !! 0%nat =
      Some {| bucket := Test.bucket; presignClient := Some c |} /\
    heap (snd (@PresignedUploadURL _ Test.sdk_success (Some 0%nat) Test.ctx
                 "uploads/first.txt" Test.expires
                 (snd (@New _ Test.sdk_success Test.ctx Test.bucket "us-east-1"
                         Test.empty_state)))) !! 0%nat =
      Some {| bucket := Test.bucket; presignClient := Some c |} /\
    calls (snd (@PresignedUploadURL _ Test.sdk_success (Some 0%nat) Test.ctx
                  Test.destination Test.expires
                  (snd (@PresignedUploadURL _ Test.sdk_success (Some 0%nat)
                          Test.ctx "uploads/first.txt" Test.expires
                          (snd (@New _ Test.sdk_success Test.ctx Test.bucket
                                  "us-east-1" Test.empty_state)))))) =
      calls (snd (@PresignedUploadURL _ Test.sdk_success (Some 0%nat) Test.ctx
                    "uploads/first.txt" Test.expires
                    (snd (@New _ Test.sdk_success Test.ctx Test.bucket
                            "us-east-1" Test.empty_state)))) ++
        [CallPresignPutObject c Test.ctx params [set_po_Expires Test.expires]] /\
    Bucket params = Some Test.bucket /\
    Key params = Some Test.destination.
Proof.
  apply (@New_provider_bucket_invariant Test.testTypes Test.sdk_success
           Test.empty_state Test.ctx Test.bucket "us-east-1" 0%nat
           (snd (@New _ Test.sdk_success Test.ctx Test.bucket "us-east-1"
                   Test.empty_state))
           (snd (@PresignedUploadURL _ Test.sdk_success (Some 0%nat) Test.ctx
                   "uploads/first.txt" Test.expires
                   (snd (@New _ Test.sdk_success Test.ctx Test.bucket
                           "us-east-1" Test.empty_state))))
           Test.ctx Test.destination Test.expires).
  - reflexivity.
  - apply rtc_once. apply step_PresignedUploadURL.
Defined.

(** ** A signing side that meets the contract *)

Lemma append_cons a s rest :
  String.append (String a s) rest = String a (String.append s rest).
Proof. reflexivity. Qed.

Lemma contains_prefix s sub : String.prefix sub s = true -> contains s sub = true.
Proof. intros H. destruct s; cbn [contains]; rewrite H; reflexivity. Qed.

Lemma prefix_empty s : String.prefix "" s = true.
Proof. destruct s; reflexivity. Qed.



Lemma prefix_append_l sub s rest :
  String.prefix sub s = true -> String.prefix sub (String.append s rest) = true.
Proof.
  revert s. induction sub as [|b sub IH]; intros s H; [apply prefix_empty|].
  destruct s as [|a s]; [discriminate H|].
  rewrite append_cons. cbn [String.prefix] in *.
  destruct (ascii_dec b a); [|discriminate H]. apply IH. exact H.
Qed.


Lemma contains_append_l s rest sub :
  contains s sub = true -> contains (String.append s rest) sub = true.
Proof.
  induction s as [|a s IH]; intros H.
  - cbn [contains] in H. rewrite orb_false_r in H.
    apply contains_prefix. apply (prefix_append_l sub "" rest H).
  - cbn [contains] in H. apply orb_true_iff in H as [H|H].
    + apply contains_prefix. apply prefix_append_l. exact H.
    + rewrite append_cons. cbn [contains]. rewrite (IH H). apply orb_true_r.
Qed.




End Scenarios.

(** * Further properties of s3.go *)

Section Further.

Context {T : SDKTypes} {sdk : SDK}.

Implicit Types (s : State) (l : nat) (p : ptr) (this : S3Provider)
  (c : PresignClient) (ctx : GoContext) (destination bucket region : string)
  (expires : Duration).

Local Abbreviation request bucket destination :=
  (PutObjectInput_lit (aws_String bucket) (aws_String destination)).

(** ** When [PresignedUploadURL] panics *)

(** X1: a call panics whenever the receiver points to no provider (it is
    nil), whenever the provider's client pointer is nil, and whenever the
    client answers with a nil request and a nil error, which the method
    dereferences for its URL.  So a call that has returned had a provider
    with a client, and that client answered with an error or a request. *)
Theorem PresignedUploadURL_sure_panics s p ctx destination expires :
  ((forall l, p = Some l -> heap s !! l = None) \/
   (exists l this,
      p = Some l /\ heap s !! l = Some this /\ presignClient this = None) \/
   (exists l this c w,
      p = Some l /\ heap s !! l = Some this /\ presignClient this = Some c /\
      PresignPutObject c ctx (request (bucket this) destination)
        [set_po_Expires expires] (world s) = ((None, None), w)) ->
   fst (PresignedUploadURL p ctx destination expires s) = Panicked) /\
  (forall res,
     fst (PresignedUploadURL p ctx destination expires s) = Ok res ->
     exists l this c rq err w,
       p = Some l /\ heap s !! l = Some this /\ presignClient this = Some c /\
       PresignPutObject c ctx (request (bucket this) destination)
         [set_po_Expires expires] (world s) = ((rq, err), w) /\
       (is_Some err \/ is_Some rq)).
Proof.
  split.
  - intros [Hnone | [(l & this & -> & Hl & Hc) |
                     (l & this & c & w & -> & Hl & Hc & Hcall)]].
    + rewrite (PresignedUploadURL_no_provider _ _ _ _ _ Hnone). reflexivity.
    + rewrite (PresignedUploadURL_no_client _ _ _ ctx destination expires Hl Hc).
      reflexivity.
    + rewrite (PresignedUploadURL_run _ _ _ _ ctx destination expires Hl Hc).
      cbv zeta. rewrite Hcall. reflexivity.
  - intros res Hres.
    destruct (PresignedUploadURL_cases s p ctx destination expires)
      as [Hpanic | (l & this & c & -> & Hl & Hc)].
    + rewrite Hpanic in Hres. discriminate Hres.
    + rewrite (PresignedUploadURL_run _ _ _ _ ctx destination expires Hl Hc)
        in Hres. cbv zeta in Hres.
      destruct (PresignPutObject _ _ _ _ _) as [[rq err] w] eqn:Hcall.
      exists l, this, c, rq, err, w. repeat split; try assumption.
      destruct err as [e|]; [left; eauto|].
      destruct rq as [r|]; [right; eauto|discriminate Hres].
Qed.

(** ** What [New] asks of the world *)

(** X3: a [New] that has returned has loaded the configuration once, with
    the caller's context and the region as the only load option, and has
    asked for no signature; the error it returns is the load's, and it
    returns a provider exactly when that error is nil. *)
Theorem New_loads_configuration_once s ctx bucket region p err s' :
  New ctx bucket region s = (Ok (p, err), s') ->
  (p = None <-> err <> None) /\
  err = snd (fst (LoadDefaultConfig ctx [WithRegion region] (world s))) /\
  calls s' = calls s ++ [CallLoadDefaultConfig ctx [WithRegion region]] /\
  world s' = snd (LoadDefaultConfig ctx [WithRegion region] (world s)).
Proof.
  rewrite New_run. cbv zeta.
  destruct (LoadDefaultConfig _ _ _) as [[cfg [e|]] w]; simpl.
  - intros [= <- <- <-]. repeat split; auto; discriminate.
  - intros [= <- <- <-]. repeat split; auto; try discriminate.
    intros H. contradiction.
Qed.

(** ** Provider objects *)

(** X4: the provider that a successful [New] returns is a new object: its
    address held no provider before, exactly one object has been added,
    and every provider that existed is still where and what it was. *)
Theorem New_allocates_fresh s ctx bucket region l s' :
  New ctx bucket region s = (Ok (Some l, None), s') ->
  heap s !! l = None /\
  length (heap s') = S (length (heap s)) /\
  (forall l' this,
     heap s !! l' = Some this -> l' <> l /\ heap s' !! l' = Some this).
Proof.
  intros Hnew. rewrite New_run in Hnew. cbv zeta in Hnew.
  destruct (LoadDefaultConfig _ _ _) as [[cfg [e|]] w]; [discriminate|].
  injection Hnew as <- <-. simpl.
  split; [apply lookup_ge_None; lia|].
  split; [rewrite length_app; simpl; lia|].
  intros l' this Hl'. split.
  - apply lookup_lt_Some in Hl'. lia.
  - apply lookup_app_l_Some. exact Hl'.
Qed.

(** X5: providers built by two calls of [New] are two objects, and after any
    further use of the package each still holds the bucket it was built
    with and a client. *)
Theorem New_providers_independent
    s0 ctxa ba ra la s1 s2 ctxb bb rb lb s3 s4 :
  New ctxa ba ra s0 = (Ok (Some la, None), s1) ->
  rtc step s1 s2 ->
  New ctxb bb rb s2 = (Ok (Some lb, None), s3) ->
  rtc step s3 s4 ->
  la <> lb /\
  exists ca cb,
    heap s4 !! la = Some {| bucket := ba; presignClient := Some ca |} /\
    heap s4 !! lb = Some {| bucket := bb; presignClient := Some cb |}.
Proof.
  intros Hnewa Hsteps1 Hnewb Hsteps2.
  assert (Hinit : forall s ctx b r l s',
            New ctx b r s = (Ok (Some l, None), s') ->
            exists c, heap s' !! l = Some {| bucket := b; presignClient := Some c |}).
  { intros s ctx b r l s' Hnew. rewrite New_run in Hnew. cbv zeta in Hnew.
    destruct (LoadDefaultConfig _ _ _) as [[cfg [e|]] w]; [discriminate|].
    injection Hnew as <- <-. eexists. simpl.
    apply list_lookup_middle. reflexivity. }
  destruct (Hinit _ _ _ _ _ _ Hnewa) as [ca Ha].
  destruct (Hinit _ _ _ _ _ _ Hnewb) as [cb Hb].
  pose proof (steps_heap _ _ _ _ Hsteps1 Ha) as Ha2.
  destruct (New_allocates_fresh _ _ _ _ _ _ Hnewb) as (Hfresh & _ & Hkeep).
  destruct (Hkeep _ _ Ha2) as [Hne Ha3].
  split; [exact Hne|]. exists ca, cb. split.
  - exact (steps_heap _ _ _ _ Hsteps2 Ha3).
  - exact (steps_heap _ _ _ _ Hsteps2 Hb).
Qed.

(** X6: the result of a call depends on the state only through the fields of
    the provider and the SDK's world: the address of the provider, the
    other providers and the calls made before do not matter. *)
Theorem PresignedUploadURL_depends_on_provider_and_world
    sa sb la lb this ctx destination expires :
  heap sa !! la = Some this ->
  heap sb !! lb = Some this ->
  world sa = world sb ->
  fst (PresignedUploadURL (Some la) ctx destination expires sa) =
    fst (PresignedUploadURL (Some lb) ctx destination expires sb) /\
  world (snd (PresignedUploadURL (Some la) ctx destination expires sa)) =
    world (snd (PresignedUploadURL (Some lb) ctx destination expires sb)).
Proof.
  intros Ha Hb Hw.
  destruct (presignClient this) as [c|] eqn:Hc.
  - rewrite (PresignedUploadURL_run _ _ _ _ ctx destination expires Ha Hc).
    rewrite (PresignedUploadURL_run _ _ _ _ ctx destination expires Hb Hc).
    cbv zeta. rewrite Hw.
    destruct (PresignPutObject _ _ _ _ _) as [[rq [e|]] w]; [simpl; auto|].
    destruct rq; simpl; auto.
  - rewrite (PresignedUploadURL_no_client _ _ _ ctx destination expires Ha Hc).
    rewrite (PresignedUploadURL_no_client _ _ _ ctx destination expires Hb Hc).
    simpl. auto.
Qed.

(** ** Construction followed by a call *)

(** X7: a call on the provider that [New] has just returned goes to the
    client built from the configuration that was loaded, with a request
    for the bucket given to [New]; when that client answers, the world has
    seen the load and then that request, an error comes back with the
    empty string, a request comes back as its URL, and an answer with
    neither makes the call panic. *)
Theorem New_then_PresignedUploadURL
    s ctx0 bucket region l s1 ctx destination expires rq err w :
  New ctx0 bucket region s = (Ok (Some l, None), s1) ->
  PresignPutObject
    (NewPresignClient
       (NewFromConfig
          (fst (fst (LoadDefaultConfig ctx0 [WithRegion region] (world s))))))
    ctx (request bucket destination) [set_po_Expires expires] (world s1) =
    ((rq, err), w) ->
  PresignedUploadURL (Some l) ctx destination expires s1 =
    (match err, rq with
     | Some _, _ => Ok ("", err)
     | None, Some r => Ok (URL r, None)
     | None, None => Panicked
     end,
     {| heap := heap s1; world := w;
        calls := calls s ++
          [CallLoadDefaultConfig ctx0 [WithRegion region];
           CallPresignPutObject
             (NewPresignClient
                (NewFromConfig
                   (fst (fst (LoadDefaultConfig ctx0 [WithRegion region]
                                (world s))))))
             ctx (request bucket destination) [set_po_Expires expires]] |}).
Proof.
  intros Hnew. rewrite New_run in Hnew. cbv zeta in Hnew.
  destruct (LoadDefaultConfig _ _ _) as [[cfg [e|]] w0]; [discriminate|].
  injection Hnew as <- <-. simpl fst.
  set (this := {| bucket := bucket;
                  presignClient := Some (NewPresignClient (NewFromConfig cfg)) |}).
  set (s1 := {| heap := heap s ++ [this]; world := w0;
                calls := calls s ++
                  [CallLoadDefaultConfig ctx0 [WithRegion region]] |}).
  intros Hcall.
  assert (Hl : heap s1 !! length (heap s) = Some this).
  { simpl. apply list_lookup_middle. reflexivity. }
  rewrite (PresignedUploadURL_run _ _ _ _ ctx destination expires Hl eq_refl).
  cbv zeta. subst this s1. simpl in *. rewrite Hcall.
  rewrite <- app_assoc. reflexivity.
Qed.

End Further.

(** * The test doubles of s3_test.go *)

Section DoublesAndProvider.

Context {T : SDKTypes} {sdk : SDK} {C : Type} {api : Test.presignClientAPI C}.

Local Abbreviation request bucket destination :=
  (PutObjectInput_lit (aws_String bucket) (aws_String destination)).

(** X8: the provider of the tests and the provider of the package build the
    same request.  When the double and the client answer it alike (the
    same error, and on success the double's string is the URL of the
    client's request), the two providers return the same error, and on
    success the same URL; on error the package's provider returns the empty
    string, the test's provider the string of its double, whatever it is. *)
Theorem testS3Provider_and_S3Provider
    (tp : Test.testS3Provider C) (s : State) l this c ctx destination expires
    u err rq w :
  heap s !! l = Some this ->
  presignClient this = Some c ->
  Test.t_bucket tp = bucket this ->
  Test.api_PresignPutObject (Test.t_presignClient tp) ctx
    (request (bucket this) destination) [set_po_Expires expires] = Ok (u, err) ->
  PresignPutObject c ctx (request (bucket this) destination)
    [set_po_Expires expires] (world s) = ((rq, err), w) ->
  (err = None -> exists r, rq = Some r /\ URL r = u) ->
  Test.PresignedUploadURL tp ctx destination expires = Ok (u, err) /\
  fst (PresignedUploadURL (Some l) ctx destination expires s) =
    Ok (match err with Some _ => "" | None => u end, err).
Proof.
  intros Hl Hc Hb Hdouble Hclient Hcorr. split.
  - unfold Test.PresignedUploadURL. rewrite Hb. exact Hdouble.
  - rewrite (PresignedUploadURL_run _ _ _ _ ctx destination expires Hl Hc).
    cbv zeta. rewrite Hclient. destruct err as [e|]; [reflexivity|].
    destruct (Hcorr eq_refl) as (r & -> & <-). reflexivity.
Qed.

End DoublesAndProvider.

Section Mocks.

Context {T : SDKTypes}.

Local Existing Instance Test.mockPresignClient_api.

(** X9: the mock of the first subtest matches on bucket and key only: for
    every context and every expiry it answers with the expected URL when
    bucket and key are the test's, and any other bucket or key is an
    unexpected call, on which the mock panics.  The mock of the second
    subtest answers every call with the empty string and the expected
    error. *)
Theorem mocks_of_TestPresignedUploadURL
    (b destination : string) (ctx : GoContext) (expires : Duration)
    (expectedError : error) :
  Test.PresignedUploadURL
    {| Test.t_bucket := b; Test.t_presignClient := Mocks.mockClient_success |}
    ctx destination expires =
    (if String.eqb b Test.bucket && String.eqb destination Test.destination
     then Ok (Test.expectedURL, None) else Panicked) /\
  Test.PresignedUploadURL
    {| Test.t_bucket := b;
       Test.t_presignClient := Mocks.mockClient_error expectedError |}
    ctx destination expires = Ok ("", Some expectedError).
Proof.
  split; [|reflexivity].
  unfold Test.PresignedUploadURL, Test.api_PresignPutObject,
    Test.mockPresignClient_api, Test.mock_PresignPutObject. simpl.
  unfold Test.bucket_and_key_match, PutObjectInput_lit, aws_String. simpl.
  destruct (String.eqb b Test.bucket); [|reflexivity].
  destruct (String.eqb destination Test.destination); reflexivity.
Qed.

End Mocks.

(** The mocks of the test runs are those mocks. *)
Example mocks_at_test_types :
  @Mocks.mockClient_success Test.testTypes = Test.mockClient_success /\
  @Mocks.mockClient_error Test.testTypes Test.expectedError =
    Test.mockClient_error.
Proof. split; reflexivity. Qed.

(** * The upload handler of README.md *)

Section Handler.

Context {T : SDKTypes} {sdk : SDK}.
Variable error_Error : error -> string.

Local Abbreviation request bucket destination :=
  (PutObjectInput_lit (aws_String bucket) (aws_String destination)).

Lemma Values_Get_first v key x rest :
  v !! key = Some (x :: rest) -> Readme.Values_Get v key = x.
Proof. intros H. unfold Readme.Values_Get. rewrite H. reflexivity. Qed.

Lemma Values_Get_no_value v key :
  (forall x rest, v !! key = Some (x :: rest) -> x = "") ->
  Readme.Values_Get v key = "".
Proof.
  intros H. unfold Readme.Values_Get.
  destruct (v !! key) as [[|x rest]|]; try reflexivity.
  exact (H x rest eq_refl).
Qed.

(** X10: a request without a [filename] parameter, or whose first [filename]
    value is empty, is answered with status 400 and "filename required";
    the provider is not called and nothing else changes, whatever the
    provider is. *)
Theorem uploadHandler_filename_required
    {P} {I : UploadProvider P} (provider : P) w (r : Readme.Request) (s : State) :
  (forall x rest, Readme.Query r !! "filename" = Some (x :: rest) -> x = "") ->
  Readme.uploadHandler error_Error provider w r s =
    (Ok (w ++ [Readme.http_Error "filename required" 400]), s).
Proof.
  intros Hq. unfold Readme.uploadHandler.
  rewrite (Values_Get_no_value _ _ Hq). reflexivity.
Qed.

(** X11: with a non-empty first [filename] value, the handler on a provider of
    the package asks the provider's client once, for the key "uploads/"
    followed by the value exactly as it came, for fifteen minutes and with
    the request's context.  A client error becomes status 500 with the
    error's message, a signed request becomes a JSON object whose one
    entry [upload_url] is the client's URL. *)
Theorem uploadHandler_on_S3Provider
    l this c w (r : Readme.Request) (s : State) filename rest :
  Readme.Query r !! "filename" = Some (filename :: rest) ->
  filename <> "" ->
  heap s !! l = Some this ->
  presignClient this = Some c ->
  let params := request (bucket this) (String.append "uploads/" filename) in
  let optFns := [set_po_Expires 900000000000] in
  let '((rq, err), wd) :=
    PresignPutObject c (Readme.Request_Context r) params optFns (world s) in
  Readme.uploadHandler (I := S3Provider_UploadProvider) error_Error (Some l) w r s =
    (match err, rq with
     | Some e, _ => Ok (w ++ [Readme.http_Error (error_Error e) 500])
     | None, Some q => Ok (w ++ [Readme.json_Encode {[ "upload_url" := URL q ]}])
     | None, None => Panicked
     end,
     {| heap := heap s; world := wd;
        calls := calls s ++
          [CallPresignPutObject c (Readme.Request_Context r) params optFns] |}).
Proof.
  intros Hq Hne Hl Hc. cbv zeta.
  unfold Readme.uploadHandler.
  rewrite (Values_Get_first _ _ _ _ Hq).
  destruct (String.eqb_spec filename ""); [contradiction|].
  unfold bind at 1. simpl UploadProvider_PresignedUploadURL.
  rewrite (PresignedUploadURL_run _ _ _ _ _ _ _ Hl Hc). cbv zeta.
  change (15 * Minute) with 900000000000.
  destruct (PresignPutObject _ _ _ _ _) as [[rq [e|]] wd]; [reflexivity|].
  destruct rq; reflexivity.
Qed.

(** X12: whatever the provider, a handler run that returns has written exactly
    one response after the writes that were there: the 400 error, a 500
    error, or a JSON object with the single entry [upload_url]. *)
Theorem uploadHandler_writes_once
    {P} {I : UploadProvider P} (provider : P) w (r : Readme.Request)
    (s s' : State) w' :
  Readme.uploadHandler error_Error provider w r s = (Ok w', s') ->
  exists x,
    w' = w ++ [x] /\
    (x = Readme.http_Error "filename required" 400 \/
     (exists e, x = Readme.http_Error (error_Error e) 500) \/
     (exists url, x = Readme.json_Encode {[ "upload_url" := url ]})).
Proof.
  unfold Readme.uploadHandler.
  destruct (String.eqb _ _).
  - intros [= <- <-]. eexists. split; [reflexivity|]. auto.
  - unfold bind.
    destruct (UploadProvider_PresignedUploadURL _ _ _ _ _) as [[[url [e|]]|] s1].
    + intros [= <- <-]. eexists. split; [reflexivity|]. eauto.
    + intros [= <- <-]. eexists. split; [reflexivity|]. eauto.
    + discriminate.
Qed.

End Handler.

(** * Concrete runs of the further properties *)

Section FurtherScenarios.

Local Existing Instance Test.testTypes.
Local Existing Instance Test.mockPresignClient_api.

Local Abbreviation request bucket destination :=
  (PutObjectInput_lit (aws_String bucket) (aws_String destination)).

(** A nil receiver panics and leaves the state alone. *)
Example PresignedUploadURL_nil_receiver :
  @PresignedUploadURL _ Test.sdk_success None Test.ctx Test.destination
    Test.expires (Test.one_provider Test.bucket) =
  (Panicked, Test.one_provider Test.bucket).
Proof. reflexivity. Qed.

Lemma New_allocates_fresh_witness :
  heap (Test.one_provider "old-bucket") !! 1%nat = None /\
  length (heap (snd (@New _ Test.sdk_success Test.ctx Test.bucket "us-east-1"
                       (Test.one_provider "old-bucket")))) =
    S (length (heap (Test.one_provider "old-bucket"))) /\
  (forall l' this,
     heap (Test.one_provider "old-bucket") !! l' = Some this ->
     l' <> 1%nat /\
     heap (snd (@New _ Test.sdk_success Test.ctx Test.bucket "us-east-1"
                  (Test.one_provider "old-bucket"))) !! l' = Some this).
Proof.
  apply (@New_allocates_fresh Test.testTypes Test.sdk_success
           (Test.one_provider "old-bucket") Test.ctx Test.bucket "us-east-1"
           1%nat).
  reflexivity.
Defined.

Lemma New_providers_independent_witness :
  0%nat <> 1%nat /\
  exists ca cb,
    heap (snd (@PresignedUploadURL _ Test.sdk_success (Some 0%nat) Test.ctx
                 Test.destination Test.expires
                 (snd (@New _ Test.sdk_success Test.ctx "bucket-b" "eu-west-1"
                         (snd (@New _ Test.sdk_success Test.ctx "bucket-a"
                                 "us-east-1" Test.empty_state)))))) !! 0%nat =
      Some {| bucket := "bucket-a"; presignClient := Some ca |} /\
    heap (snd (@PresignedUploadURL _ Test.sdk_success (Some 0%nat) Test.ctx
                 Test.destination Test.expires
                 (snd (@New _ Test.sdk_success Test.ctx "bucket-b" "eu-west-1"
                         (snd (@New _ Test.sdk_success Test.ctx "bucket-a"
                                 "us-east-1" Test.empty_state)))))) !! 1%nat =
      Some {| bucket := "bucket-b"; presignClient := Some cb |}.
Proof.
  apply (@New_providers_independent Test.testTypes Test.sdk_success
           Test.empty_state
           Test.ctx "bucket-a" "us-east-1" 0%nat
           (snd (@New _ Test.sdk_success Test.ctx "bucket-a" "us-east-1"
                   Test.empty_state))
           (snd (@New _ Test.sdk_success Test.ctx "bucket-a" "us-east-1"
                   Test.empty_state))
           Test.ctx "bucket-b" "eu-west-1" 1%nat
           (snd (@New _ Test.sdk_success Test.ctx "bucket-b" "eu-west-1"
                   (snd (@New _ Test.sdk_success Test.ctx "bucket-a"
                           "us-east-1" Test.empty_state))))
           (snd (@PresignedUploadURL _ Test.sdk_success (Some 0%nat) Test.ctx
                   Test.destination Test.expires
                   (snd (@New _ Test.sdk_success Test.ctx "bucket-b" "eu-west-1"
                           (snd (@New _ Test.sdk_success Test.ctx "bucket-a"
                                   "us-east-1" Test.empty_state))))))).
  - reflexivity.
  - apply rtc_refl.
  - reflexivity.
  - apply rtc_once. apply step_PresignedUploadURL.
Defined.

(** The same provider at two addresses, in states with different traces. *)
Lemma PresignedUploadURL_depends_on_provider_and_world_witness :
  fst (@PresignedUploadURL _ Test.sdk_success (Some 0%nat) Test.ctx
         Test.destination Test.expires (Test.one_provider Test.bucket)) =
    fst (@PresignedUploadURL _ Test.sdk_success (Some 1%nat) Test.ctx
           Test.destination Test.expires
           {| heap := [Test.provider "other"; Test.provider Test.bucket];
              world := 0%nat;
              calls := [CallLoadDefaultConfig Test.ctx ["us-east-1"]] |}) /\
  world (snd (@PresignedUploadURL _ Test.sdk_success (Some 0%nat) Test.ctx
                Test.destination Test.expires (Test.one_provider Test.bucket))) =
    world (snd (@PresignedUploadURL _ Test.sdk_success (Some 1%nat) Test.ctx
                  Test.destination Test.expires
                  {| heap := [Test.provider "other"; Test.provider Test.bucket];
                     world := 0%nat;
                     calls := [CallLoadDefaultConfig Test.ctx ["us-east-1"]] |})).
Proof.
  apply (@PresignedUploadURL_depends_on_provider_and_world Test.testTypes
           Test.sdk_success (Test.one_provider Test.bucket)
           {| heap := [Test.provider "other"; Test.provider Test.bucket];
              world := 0%nat;
              calls := [CallLoadDefaultConfig Test.ctx ["us-east-1"]] |}
           0%nat 1%nat (Test.provider Test.bucket) Test.ctx Test.destination
           Test.expires);
    reflexivity.
Defined.

(** The error subtest beside the package's provider: the same error, and
    an empty string from both. *)
Lemma testS3Provider_and_S3Provider_witness :
  Test.PresignedUploadURL Test.provider_error Test.ctx Test.destination
    Test.expires = Ok ("", Some Test.expectedError) /\
  fst (@PresignedUploadURL _ Test.sdk_error (Some 0%nat) Test.ctx
         Test.destination Test.expires (Test.one_provider Test.bucket)) =
    Ok ("", Some Test.expectedError).
Proof.
  apply (@testS3Provider_and_S3Provider Test.testTypes Test.sdk_error
           _ Test.mockPresignClient_api Test.provider_error
           (Test.one_provider Test.bucket) 0%nat (Test.provider Test.bucket)
           Test.client Test.ctx Test.destination Test.expires
           "" (Some Test.expectedError)
           (Test.signed "https://partial.invalid/") 1%nat);
    try reflexivity.
  intros H. discriminate H.
Defined.

Lemma uploadHandler_filename_required_witness :
  @Readme.uploadHandler _ Readme.test_error_Error _
    (@S3Provider_UploadProvider _ Test.sdk_success) (Some 0%nat) []
    (Readme.request_for []) (Test.one_provider Test.bucket) =
  (Ok [Readme.http_Error "filename required" 400],
   Test.one_provider Test.bucket).
Proof.
  apply (@uploadHandler_filename_required Test.testTypes
           Readme.test_error_Error _
           (@S3Provider_UploadProvider _ Test.sdk_success) (Some 0%nat) []
           (Readme.request_for []) (Test.one_provider Test.bucket)).
  intros x rest H. vm_compute in H. discriminate H.
Defined.

(** A file name that climbs out of the folder goes to the client as it is. *)
Lemma uploadHandler_on_S3Provider_witness :
  @Readme.uploadHandler _ Readme.test_error_Error _
    (@S3Provider_UploadProvider _ Test.sdk_success) (Some 0%nat) []
    (Readme.request_for ["../private/key.pem"; "ignored.txt"])
    (Test.one_provider Test.bucket) =
  (Ok [Readme.json_Encode {[ "upload_url" := Test.expectedURL ]}],
   {| heap := [Test.provider Test.bucket]; world := 1%nat;
      calls := [CallPresignPutObject Test.client Test.ctx
                  (request Test.bucket "uploads/../private/key.pem")
                  [set_po_Expires 900000000000]] |}).
Proof.
  apply (@uploadHandler_on_S3Provider Test.testTypes Test.sdk_success
           Readme.test_error_Error 0%nat (Test.provider Test.bucket)
           Test.client [] (Readme.request_for ["../private/key.pem"; "ignored.txt"])
           (Test.one_provider Test.bucket) "../private/key.pem" ["ignored.txt"]).
  - vm_compute. reflexivity.
  - intros H. discriminate H.
  - reflexivity.
  - reflexivity.
Defined.

Lemma uploadHandler_writes_once_witness :
  exists x,
    [Readme.http_Error "presign error" 500] = [] ++ [x] /\
    (x = Readme.http_Error "filename required" 400 \/
     (exists e, x = Readme.http_Error (Readme.test_error_Error e) 500) \/
     (exists url, x = Readme.json_Encode {[ "upload_url" := url ]})).
Proof.
  apply (@uploadHandler_writes_once Test.testTypes Readme.test_error_Error _
           (@S3Provider_UploadProvider _ Test.sdk_error) (Some 0%nat) []
           (Readme.request_for ["a.jpg"]) (Test.one_provider Test.bucket)
           {| heap := [Test.provider Test.bucket]; world := 1%nat;
              calls := [CallPresignPutObject Test.client Test.ctx
                          (request Test.bucket "uploads/a.jpg")
                          [set_po_Expires 900000000000]] |}
           [Readme.http_Error "presign error" 500]).
  vm_compute. reflexivity.
Defined.

(** A client that answers with neither a request nor an error. *)
Lemma PresignedUploadURL_sure_panics_witness :
  fst (@PresignedUploadURL _ Test.sdk_config_error (Some 0%nat) Test.ctx
         Test.destination Test.expires (Test.one_provider Test.bucket)) =
    Panicked.
Proof.
  apply (proj1 (@PresignedUploadURL_sure_panics Test.testTypes
                  Test.sdk_config_error (Test.one_provider Test.bucket)
                  (Some 0%nat) Test.ctx Test.destination Test.expires)).
  right. right.
  exists 0%nat, (Test.provider Test.bucket), Test.client, 1%nat.
  repeat split; reflexivity.
Defined.

Lemma New_loads_configuration_once_witness :
  (Some 0%nat = None <-> @None string <> None) /\
  @None string =
    snd (fst (@LoadDefaultConfig _ Test.sdk_success Test.ctx
                [@WithRegion _ Test.sdk_success "us-east-1"] 0%nat)) /\
  calls (snd (@New _ Test.sdk_success Test.ctx Test.bucket "us-east-1"
                Test.empty_state)) =
    [] ++ [CallLoadDefaultConfig Test.ctx
             [@WithRegion _ Test.sdk_success "us-east-1"]] /\
  world (snd (@New _ Test.sdk_success Test.ctx Test.bucket "us-east-1"
                Test.empty_state)) =
    snd (@LoadDefaultConfig _ Test.sdk_success Test.ctx
           [@WithRegion _ Test.sdk_success "us-east-1"] 0%nat).
Proof.
  apply (@New_loads_configuration_once Test.testTypes Test.sdk_success
           Test.empty_state Test.ctx Test.bucket "us-east-1"
           (Some 0%nat) None
           (snd (@New _ Test.sdk_success Test.ctx Test.bucket "us-east-1"
                   Test.empty_state))).
  reflexivity.
Defined.

Lemma New_then_PresignedUploadURL_witness :
  @PresignedUploadURL _ Test.sdk_success (Some 0%nat) Test.ctx
    Test.destination Test.expires
    (snd (@New _ Test.sdk_success Test.ctx Test.bucket "us-east-1"
            Test.empty_state)) =
  (Ok (Test.expectedURL, None),
   {| heap := [ @Build_S3Provider Test.testTypes Test.bucket (Some "us-east-1") ];
      world := 2%nat;
      calls := [CallLoadDefaultConfig Test.ctx ["us-east-1"];
                CallPresignPutObject "us-east-1" Test.ctx
                  (request Test.bucket Test.destination)
                  [set_po_Expires Test.expires]] |}).
Proof.
  apply (@New_then_PresignedUploadURL Test.testTypes Test.sdk_success
           Test.empty_state Test.ctx Test.bucket "us-east-1" 0%nat
           (snd (@New _ Test.sdk_success Test.ctx Test.bucket "us-east-1"
                   Test.empty_state))
           Test.ctx Test.destination Test.expires
           (Test.signed Test.expectedURL) None 2%nat);
    reflexivity.
Defined.

End FurtherScenarios.
